(** * app/api/internal_v1.py: the moderation sub-application

    A shallow embedding of the seven routes of [subapp] and of the
    SQLModel session they talk to.  A table is a finite map from primary
    key to row, a request handler is a program in a state-and-exception
    monad over the session, and the route decorators (rate limiter, role
    dependency) are tables consulted by the dispatcher before the handler
    body runs. *)

From stdpp Require Import base option list gmap fin_maps functions strings sorting.

Open Scope Z_scope.

(** ** Declarations imported by the module *)

(** Primary keys and scalar columns.  [UUID4] values are 128-bit numbers,
    user ids and team numbers are Python ints, [datetime] values are
    compared by their position on the time line. *)
Abbreviation UUID := N (only parsing).
Abbreviation UserId := Z (only parsing).
Abbreviation TeamNumber := Z (only parsing).
Abbreviation datetime := Z (only parsing).

(** [app.models.models] and [app.models.schemas] are imported, not defined,
    by this module.  Their enums and the column types the handlers only
    copy around are the parameters of the development.  [role_level] is
    the position of a role in the role hierarchy. *)
Class Models := {
  ImageReviewStatus : Type;
  ImageReviewStatus_eq_dec :: EqDecision ImageReviewStatus;
  UserRole : Type;
  UserRole_eq_dec :: EqDecision UserRole;
  MODERATOR : UserRole;
  ADMIN : UserRole;
  role_level : UserRole → Z;
  Batch : Type;
  Annotations : Type;
  ImageColumns : Type;
  UserColumns : Type;
  LabelCategory : Type;
  LabelSuperCategory : Type;
  FileResponse : Type;
}.

Section schemas.
Context `{Models}.

(** A row of the image table, without its primary key.  [image_columns]
    stands for the columns no handler of this module reads or writes. *)
Record Image := {
  created_at : datetime;
  created_by : UserId;
  batch : Batch;
  annotations : Annotations;
  review_status : ImageReviewStatus;
  image_columns : ImageColumns;
}.

Record User := {
  username : string;
  team_number : TeamNumber;
  role : UserRole;
  user_columns : UserColumns;
}.

Record ReviewMetadata := {
  rm_id : UUID;
  rm_annotations : Annotations;
  rm_created_at : datetime;
  rm_created_by : TeamNumber;
  rm_batch : Batch;
  rm_review_status : ImageReviewStatus;
}.

(** The database: two keyed tables and two tables the module only
    appends to. *)
Record DB := {
  images : gmap UUID Image;
  users : gmap UserId User;
  label_super_categories : list LabelSuperCategory;
  label_categories : list LabelCategory;
}.

(** An [Image] instance loaded by the session: the row together with the
    primary key it was loaded under. *)
Definition ImageObj : Type := UUID * Image.

(** [image.id] is declared optional on the model class; on a loaded
    instance it is the primary key. *)
Definition image_id (image : ImageObj) : option UUID := Some image.1.

(** Truthiness of a model instance in [if not image]: SQLModel classes
    define neither [__bool__] nor [__len__], so every instance is true. *)
Definition truthy (image : ImageObj) : bool := true.

(** Row [row] under key [id] has the wanted status and no row with that
    status is older. *)
Definition oldest_with_status (table : gmap UUID Image)
    (status : ImageReviewStatus) (id : UUID) (row : Image) : Prop :=
  table !! id = Some row ∧ review_status row = status ∧
  ∀ id' row', table !! id' = Some row' → review_status row' = status →
              created_at row ≤ created_at row'.

(** The database engine's ORDER BY on the image table. *)
Definition OrderBy : Type := (ImageObj → Z) → list ImageObj → list ImageObj.

(** What SQL promises of ORDER BY: the same rows, in ascending key
    order.  The order of rows with equal keys is left to the engine. *)
Definition sorts (engine : OrderBy) : Prop :=
  ∀ key rows,
    engine key rows ≡ₚ rows ∧
    Sorted (λ a b, key a ≤ key b) (engine key rows).
End schemas.

(** [app.core.helpers] is imported, not defined, by this module.  Each
    helper looks a user up in the session it is handed; [None] stands for
    the helper raising.  [get_user_from_username] hands back a [User]
    instance: the row with its primary key. *)
Class Helpers `{Models} := {
  get_id_from_team_number : TeamNumber → gmap UserId User → option UserId;
  get_team_number_from_id : UserId → gmap UserId User → option TeamNumber;
  get_user_from_username : string → gmap UserId User → option (UserId * User);
}.

(** [app.services.buckets] and [image_response] are external. *)
Class Buckets `{Models} := {
  buckets_get_image : UUID → FileResponse;
}.

(** ** The session monad *)

Inductive Exn :=
  | NoResultFound
  | MultipleResultsFound
  | LookupError
  | AssertionError
  | HTTPException (status_code : Z) (detail : string)
  | HelperError.

Inductive Result (A : Type) :=
  | Return (a : A)
  | Raise (e : Exn).
Arguments Return {A} a.
Arguments Raise {A} e.

Definition HTTP_404_NOT_FOUND : Z := 404.

Section session.
Context `{Models}.

(** A session holds the committed database, the state of its open
    transaction, the number of commits it has issued, and the engine
    that runs its queries. *)
Record Session := {
  committed : DB;
  pending : DB;
  commits : nat;
  engine : OrderBy;
}.

Definition M (A : Type) : Type := Session → Result A * Session.

#[export] Instance session_ret : MRet M := λ A a s, (Return a, s).
#[export] Instance session_bind : MBind M := λ A B k m s,
  match m s with
  | (Return a, s') => k a s'
  | (Raise e, s') => (Raise e, s')
  end.

Definition raise {A} (e : Exn) : M A := λ s, (Raise e, s).
Definition gets {A} (f : Session → A) : M A := λ s, (Return (f s), s).
Definition modify_pending (f : DB → DB) : M unit :=
  λ s, (Return (),
        {| committed := committed s; pending := f (pending s);
           commits := commits s; engine := engine s |}).

(** [session.commit()]: the transaction becomes the committed state. *)
Definition session_commit : M unit :=
  λ s, (Return (),
        {| committed := pending s; pending := pending s;
           commits := S (commits s); engine := engine s |}).

(** [session.get(Image, id)]: the instance under that key, or [None]. *)
Definition session_get_Image (id : UUID) : M (option ImageObj) :=
  gets (λ s, (λ row, (id, row)) <$> images (pending s) !! id).

(** [session.delete(image)]. *)
Definition session_delete_Image (image : ImageObj) : M unit :=
  modify_pending (λ db,
    {| images := delete image.1 (images db); users := users db;
       label_super_categories := label_super_categories db;
       label_categories := label_categories db |}).

(** [session.add(image)]: the instance's attribute values are what the
    next flush writes under its primary key. *)
Definition session_add_Image (image : ImageObj) : M unit :=
  modify_pending (λ db,
    {| images := <[image.1 := image.2]> (images db); users := users db;
       label_super_categories := label_super_categories db;
       label_categories := label_categories db |}).

(** A [select(Image)] statement as the query builder accumulates it. *)
Record Select := {
  where_clause : Image → bool;
  order_by_clause : option (Image → Z);
  limit_clause : option nat;
}.

Definition select_Image : Select :=
  {| where_clause := λ _, true; order_by_clause := None;
     limit_clause := None |}.
Definition where_ (P : Image → bool) (q : Select) : Select :=
  {| where_clause := λ row, where_clause q row && P row;
     order_by_clause := order_by_clause q; limit_clause := limit_clause q |}.
Definition order_by (key : Image → Z) (q : Select) : Select :=
  {| where_clause := where_clause q; order_by_clause := Some key;
     limit_clause := limit_clause q |}.
Definition limit (n : nat) (q : Select) : Select :=
  {| where_clause := where_clause q; order_by_clause := order_by_clause q;
     limit_clause := Some n |}.

(** The rows a statement selects on a table, under a given engine:
    WHERE, then ORDER BY, then LIMIT. *)
Definition run_select (eng : OrderBy) (q : Select)
    (table : gmap UUID Image) : list ImageObj :=
  let rows := filter (λ o : ImageObj, where_clause q o.2 = true)
                     (map_to_list table) in
  let rows := match order_by_clause q with
              | Some key => eng (λ o, key o.2) rows
              | None => rows
              end in
  match limit_clause q with
  | Some n => take n rows
  | None => rows
  end.

(** [session.exec(statement)]. *)
Definition session_exec (q : Select) : M (list ImageObj) :=
  gets (λ s, run_select (engine s) q (images (pending s))).

(** [Result.one()]: exactly one row, or an exception. *)
Definition one {A} (rows : list A) : M A :=
  match rows with
  | [] => raise NoResultFound
  | [row] => mret row
  | _ => raise MultipleResultsFound
  end.

(** Modelled from the spec: [get_session] lives in [app.db.database], which
    is not part of this module; the spec treats the session layer as a
    plain wrapper over the ORM.  Each request gets a fresh session on the
    committed database. *)
Definition get_session (eng : OrderBy) (db : DB) : Session :=
  {| committed := db; pending := db; commits := 0; engine := eng |}.
End session.

(** ** The handlers *)

Section handlers.
Context `{Helpers} `{!Buckets}.

(** A call into [app.core.helpers] with the handler's session. *)
Definition call_helper {A} (f : gmap UserId User → option A) : M A :=
  λ s, match f (users (pending s)) with
       | Some a => (Return a, s)
       | None => (Raise HelperError, s)
       end.

(** [user.role = new_role]. *)
Definition set_role (new_role : UserRole) (user : User) : User :=
  {| username := username user;
     team_number := team_number user;
     role := new_role;
     user_columns := user_columns user |}.

(** [session.add(user)] and [session.add(category)]. *)
Definition session_add_User (user : UserId * User) : M unit :=
  modify_pending (λ db,
    {| images := images db; users := <[user.1 := user.2]> (users db);
       label_super_categories := label_super_categories db;
       label_categories := label_categories db |}).
Definition session_add_LabelSuperCategory (c : LabelSuperCategory) : M unit :=
  modify_pending (λ db,
    {| images := images db; users := users db;
       label_super_categories := label_super_categories db ++ [c];
       label_categories := label_categories db |}).
Definition session_add_LabelCategory (c : LabelCategory) : M unit :=
  modify_pending (λ db,
    {| images := images db; users := users db;
       label_super_categories := label_super_categories db;
       label_categories := label_categories db ++ [c] |}).

(** The statement [get_image_for_review] builds. *)
Definition queue_statement (target_status : ImageReviewStatus) : Select :=
  limit 1
    (order_by created_at
      (where_ (λ row, bool_decide (review_status row = target_status))
        select_Image)).

(** The body [get_image_for_review] returns for a loaded image. *)
Definition review_metadata_of (id : UUID) (row : Image) (team : TeamNumber)
    : ReviewMetadata :=
  {| rm_id := id;
     rm_annotations := annotations row;
     rm_created_at := created_at row;
     rm_created_by := team;
     rm_batch := batch row;
     rm_review_status := review_status row |}.

(** GET /review-image *)
Definition get_image_for_review (target_status : ImageReviewStatus)
    : M ReviewMetadata :=
  let statement :=
    limit 1
      (order_by created_at
        (where_ (λ row, bool_decide (review_status row = target_status))
          select_Image)) in
  rows ← session_exec statement;
  image ← one rows;
  if negb (truthy image) then raise LookupError
  else
    match image_id image with
    | None => raise AssertionError
    | Some id =>
      team ← call_helper (get_team_number_from_id (created_by image.2));
      mret {| rm_id := id;
              rm_annotations := annotations image.2;
              rm_created_at := created_at image.2;
              rm_created_by := team;
              rm_batch := batch image.2;
              rm_review_status := review_status image.2 |}
    end.

(** PUT /review-image *)
Definition update_image_review_status (new_data : ReviewMetadata)
    (remove_image : bool) : M unit :=
  image ← session_get_Image (rm_id new_data);
  match image with
  | None => raise (HTTPException HTTP_404_NOT_FOUND "Image not found")
  | Some image =>
    if negb (truthy image)
    then raise (HTTPException HTTP_404_NOT_FOUND "Image not found")
    else if remove_image then
      session_delete_Image image;;
      session_commit
    else
      created_by' ← call_helper
        (get_id_from_team_number (rm_created_by new_data));
      let image' : ImageObj :=
        (image.1,
         {| batch := rm_batch new_data;
            created_at := rm_created_at new_data;
            created_by := created_by';
            annotations := rm_annotations new_data;
            review_status := rm_review_status new_data;
            image_columns := image_columns image.2 |}) in
      session_add_Image image';;
      session_commit
  end.

(** GET /image/{image_id} *)
Definition get_image (image_id : UUID) : M FileResponse :=
  mret (buckets_get_image image_id).

(** POST /token *)
Definition redirect_token : M (string * Z) :=
  mret ("/token"%string, 307).

(** PUT /change-user-role *)
Definition change_user_role (username : string) (new_role : UserRole)
    : M unit :=
  user ← call_helper (get_user_from_username username);
  let user' : UserId * User := (user.1, set_role new_role user.2) in
  session_add_User user';;
  session_commit.

(** PUT /categories/super/create *)
Definition create_label_super_category (category : LabelSuperCategory)
    : M unit :=
  session_add_LabelSuperCategory category;;
  session_commit.

(** PUT /categories/create *)
Definition create_label_category (category : LabelCategory) : M unit :=
  session_add_LabelCategory category;;
  session_commit.
End handlers.

(** ** Routes, their decorators and the dispatcher *)

Inductive Route :=
  | route_get_image_for_review
  | route_update_image_review_status
  | route_get_image
  | route_redirect_token
  | route_change_user_role
  | route_create_label_super_category
  | route_create_label_category.

#[export] Instance Route_eq_dec : EqDecision Route.
Proof. solve_decision. Defined.

(** [RateLimiter(requests_limit=..., time_window=...)]. *)
Record RateLimiter := {
  requests_limit : nat;
  time_window : Z;
}.

(** The [dependencies=[Depends(RateLimiter(...))]] of each route
    decorator; the two category routes are declared without any. *)
Definition rate_limiter_of (r : Route) : option RateLimiter :=
  match r with
  | route_get_image_for_review
  | route_update_image_review_status
  | route_get_image
  | route_change_user_role =>
      Some {| requests_limit := 5; time_window := 5 |}
  | route_redirect_token =>
      Some {| requests_limit := 10; time_window := 5 |}
  | route_create_label_super_category
  | route_create_label_category => None
  end.

(** Modelled from the spec: [RateLimiter] lives in [app.core.dependencies],
    which is not part of this module; the spec calls it a window counter.
    Each limiter keeps, per client, the start of the current window and
    the number of requests admitted in it; a request is admitted when the
    window has expired (a new one starts) or its count is below the
    limit. *)
Definition rate_limiter_call (rl : RateLimiter) (client : string) (now : Z)
    (st : gmap string (Z * nat)) : bool * gmap string (Z * nat) :=
  match st !! client with
  | Some (start, n) =>
      if bool_decide (now < start + time_window rl) then
        if bool_decide (n < requests_limit rl)%nat
        then (true, <[client := (start, S n)]> st)
        else (false, st)
      else (true, <[client := (now, 1%nat)]> st)
  | None => (true, <[client := (now, 1%nat)]> st)
  end.

Section dispatch.
Context `{Helpers} `{!Buckets}.

(** The [Security(...)] dependency of a route. *)
Inductive Security :=
  | minimum_role (r : UserRole)
  | require_role (r : UserRole).

Definition security_of (r : Route) : option Security :=
  match r with
  | route_get_image_for_review
  | route_update_image_review_status
  | route_get_image
  | route_create_label_super_category
  | route_create_label_category => Some (minimum_role MODERATOR)
  | route_change_user_role => Some (require_role ADMIN)
  | route_redirect_token => None
  end.

(** Modelled from the spec: [minimum_role] and [require_role] live in
    [app.core.dependencies], which is not part of this module.  The spec
    calls the role check a hierarchical role comparison:
    [minimum_role r] lets a user through when the user's role is at
    least [r] in the hierarchy, [require_role r] when the user holds
    the role [r] itself. *)
Definition permits (dep : Security) (current_user : User) : bool :=
  match dep with
  | minimum_role r => bool_decide (role_level r ≤ role_level (role current_user))
  | require_role r => bool_decide (role current_user = r)
  end.

Inductive Request :=
  | GET_review_image (target_status : ImageReviewStatus)
  | PUT_review_image (new_data : ReviewMetadata) (remove_image : bool)
  | GET_image (image_id : UUID)
  | POST_token
  | PUT_change_user_role (username : string) (new_role : UserRole)
  | PUT_categories_super_create (category : LabelSuperCategory)
  | PUT_categories_create (category : LabelCategory).

Definition route_of (req : Request) : Route :=
  match req with
  | GET_review_image _ => route_get_image_for_review
  | PUT_review_image _ _ => route_update_image_review_status
  | GET_image _ => route_get_image
  | POST_token => route_redirect_token
  | PUT_change_user_role _ _ => route_change_user_role
  | PUT_categories_super_create _ => route_create_label_super_category
  | PUT_categories_create _ => route_create_label_category
  end.

Inductive Body :=
  | body_ReviewMetadata (m : ReviewMetadata)
  | body_null
  | body_file (f : FileResponse)
  | body_redirect (url : string) (status_code : Z).

(** The handler body of a request. *)
Definition handler (req : Request) : M Body :=
  match req with
  | GET_review_image target_status =>
      m ← get_image_for_review target_status; mret (body_ReviewMetadata m)
  | PUT_review_image new_data remove_image =>
      update_image_review_status new_data remove_image;; mret body_null
  | GET_image image_id => f ← get_image image_id; mret (body_file f)
  | POST_token => r ← redirect_token; mret (body_redirect r.1 r.2)
  | PUT_change_user_role username new_role =>
      change_user_role username new_role;; mret body_null
  | PUT_categories_super_create category =>
      create_label_super_category category;; mret body_null
  | PUT_categories_create category =>
      create_label_category category;; mret body_null
  end.

(** The application between requests: the committed database and the
    state of each route's limiter. *)
Record App := {
  database : DB;
  limiters : Route → gmap string (Z * nat);
}.

Record Call := {
  client : string;
  now : Z;
  current_user : User;
  request : Request;
}.

Inductive Response :=
  | Served (r : Result Body)
  | TooManyRequests
  | Forbidden.

(** The route's limiter, if it has one, sees the call first. *)
Definition rate_limit (c : Call) (app : App)
    : bool * (Route → gmap string (Z * nat)) :=
  let route := route_of (request c) in
  match rate_limiter_of route with
  | None => (true, limiters app)
  | Some rl =>
      let '(admitted, st) :=
        rate_limiter_call rl (client c) (now c) (limiters app route) in
      (admitted, <[route := st]> (limiters app))
  end.

(** The role dependency of the route, if it has one. *)
Definition authorized (c : Call) : bool :=
  match security_of (route_of (request c)) with
  | None => true
  | Some dep => permits dep (current_user c)
  end.

(** One request through the sub-application: limiter, role dependency,
    then the handler body on a fresh session whose uncommitted work is
    dropped when the request ends. *)
Definition serve (eng : OrderBy) (c : Call) (app : App) : Response * App :=
  let '(admitted, lim) := rate_limit c app in
  if negb admitted then
    (TooManyRequests, {| database := database app; limiters := lim |})
  else if negb (authorized c) then
    (Forbidden, {| database := database app; limiters := lim |})
  else
    let '(r, s) := handler (request c) (get_session eng (database app)) in
    (Served r, {| database := committed s; limiters := lim |}).

(** A sequence of requests, oldest first. *)
Fixpoint serve_all (eng : OrderBy) (cs : list Call) (app : App)
    : list Response * App :=
  match cs with
  | [] => ([], app)
  | c :: cs =>
      let '(r, app') := serve eng c app in
      let '(rs, app'') := serve_all eng cs app' in
      (r :: rs, app'')
  end.
End dispatch.

(** ** Two engines and a small database *)

(** Insertion sort; [before kx ky] says whether a row with key [kx] goes
    in front of an already placed row with key [ky]. *)
Fixpoint insert_row {A} (before : Z → Z → bool) (key : A → Z) (x : A)
    (l : list A) : list A :=
  match l with
  | [] => [x]
  | y :: l' =>
      if before (key x) (key y) then x :: y :: l'
      else y :: insert_row before key x l'
  end.

Definition insertion_sort {A} (before : Z → Z → bool) (key : A → Z)
    (l : list A) : list A :=
  foldr (insert_row before key) [] l.

Section engines.
Context `{Models}.

(** Among rows with equal keys, the one scanned first comes first. *)
Definition scan_order_engine : OrderBy := insertion_sort Z.leb.
(** Among rows with equal keys, the one scanned first comes last. *)
Definition reverse_scan_engine : OrderBy := insertion_sort Z.ltb.
End engines.

Inductive sample_status := PENDING | APPROVED.
Inductive sample_role := TEAM | MOD | ADM.

#[export] Instance sample_status_eq_dec : EqDecision sample_status.
Proof. solve_decision. Defined.
#[export] Instance sample_role_eq_dec : EqDecision sample_role.
Proof. solve_decision. Defined.

Definition sample_models : Models :=
  {| ImageReviewStatus := sample_status;
     UserRole := sample_role;
     MODERATOR := MOD;
     ADMIN := ADM;
     role_level := λ r, match r with TEAM => 0 | MOD => 1 | ADM => 2 end;
     Batch := Z;
     Annotations := string;
     ImageColumns := unit;
     UserColumns := unit;
     LabelCategory := string;
     LabelSuperCategory := string;
     FileResponse := N |}.

Section sample.
#[local] Existing Instance sample_models.

Definition sample_helpers : Helpers :=
  {| get_id_from_team_number := λ team us,
       fst <$> head (filter (λ p : Z * User, team_number p.2 = team)
                            (map_to_list us));
     get_team_number_from_id := λ id us, team_number <$> us !! id;
     get_user_from_username := λ name us,
       head (filter (λ p : Z * User, username p.2 = name)
                    (map_to_list us)) |}.

Definition sample_buckets : Buckets := {| buckets_get_image := λ id, id |}.

Definition sample_image (at_ : Z) (by_ : Z) (st : sample_status) : Image :=
  {| created_at := at_; created_by := by_; batch := 1;
     annotations := "[]"; review_status := st; image_columns := () |}.

Definition sample_user (name : string) (team : Z) (r : sample_role) : User :=
  {| username := name; team_number := team; role := r;
     user_columns := () |}.

Definition sample_users : gmap Z User :=
  <[7 := sample_user "alice" 254 MOD]>
    (<[8 := sample_user "bob" 1678 TEAM]>
      (<[9 := sample_user "carol" 971 ADM]> ∅)).

(** Images 1 and 2 are pending and equally old; image 4 is older but
    already approved. *)
Definition sample_db : DB :=
  {| images :=
       <[1%N := sample_image 10 7 PENDING]>
         (<[2%N := sample_image 10 8 PENDING]>
           (<[3%N := sample_image 20 7 PENDING]>
             (<[4%N := sample_image 5 8 APPROVED]> ∅)));
     users := sample_users;
     label_super_categories := [];
     label_categories := ["cone"%string] |}.

(** The same database without image 2: image 1 is the only oldest
    pending image. *)
Definition sample_db_no_tie : DB :=
  {| images :=
       <[1%N := sample_image 10 7 PENDING]>
         (<[3%N := sample_image 20 7 PENDING]>
           (<[4%N := sample_image 5 8 APPROVED]> ∅));
     users := sample_users;
     label_super_categories := [];
     label_categories := ["cone"%string] |}.

Definition sample_app : App :=
  {| database := sample_db; limiters := λ _, ∅ |}.

Definition sample_call (who : User) (req : Request) : Call :=
  {| client := "10.0.0.1"; now := 100; current_user := who;
     request := req |}.

Definition alice : User := sample_user "alice" 254 MOD.
Definition bob : User := sample_user "bob" 1678 TEAM.
Definition carol : User := sample_user "carol" 971 ADM.

(** A review of image 1, signed by team 1678. *)
Definition sample_review : ReviewMetadata :=
  {| rm_id := 1%N; rm_annotations := "[cone]"; rm_created_at := 11;
     rm_created_by := 1678; rm_batch := 2; rm_review_status := APPROVED |}.

(** A review of an image that is not in the database. *)
Definition stray_review : ReviewMetadata :=
  {| rm_id := 99%N; rm_annotations := "[cone]"; rm_created_at := 11;
     rm_created_by := 1678; rm_batch := 2; rm_review_status := APPROVED |}.
End sample.

(** ** The engines sort *)

Section insertion_sort_facts.
Context {A : Type} (before : Z → Z → bool) (key : A → Z).
Hypothesis before_le : ∀ a b, before a b = true → a ≤ b.
Hypothesis not_before_ge : ∀ a b, before a b = false → b ≤ a.

Lemma insert_row_perm x l : insert_row before key x l ≡ₚ x :: l.
Proof using Type.
  induction l as [|y l IH]; simpl; [done|].
  destruct (before (key x) (key y)); [done|].
  rewrite IH. apply Permutation_swap.
Qed.

Lemma insertion_sort_perm l : insertion_sort before key l ≡ₚ l.
Proof using Type.
  induction l as [|x l IH]; simpl; [done|].
  rewrite insert_row_perm. by rewrite IH.
Qed.

Lemma insert_row_hd x y l :
  key y ≤ key x →
  HdRel (λ a b, key a ≤ key b) y l →
  HdRel (λ a b, key a ≤ key b) y (insert_row before key x l).
Proof using Type.
  intros Hyx Hhd. destruct l as [|z l]; simpl.
  - by constructor.
  - destruct (before (key x) (key z)); constructor; [done|].
    by inversion Hhd.
Qed.

Lemma insert_row_sorted x l :
  Sorted (λ a b, key a ≤ key b) l →
  Sorted (λ a b, key a ≤ key b) (insert_row before key x l).
Proof using before_le not_before_ge.
  induction 1 as [|y l Hs IH Hhd]; simpl.
  - by repeat constructor.
  - destruct (before (key x) (key y)) eqn:Hb.
    + constructor; [by constructor|]. constructor. by apply before_le.
    + constructor; [done|]. apply insert_row_hd; [|done].
      by apply not_before_ge.
Qed.

Lemma insertion_sort_sorted l :
  Sorted (λ a b, key a ≤ key b) (insertion_sort before key l).
Proof using before_le not_before_ge.
  induction l as [|x l IH]; simpl; [constructor|].
  by apply insert_row_sorted.
Qed.
End insertion_sort_facts.

Section engine_facts.
Context `{Models}.

Lemma scan_order_engine_sorts : sorts scan_order_engine.
Proof.
  intros key rows. split.
  - apply insertion_sort_perm.
  - apply insertion_sort_sorted; intros a b Hab; lia.
Qed.

Lemma reverse_scan_engine_sorts : sorts reverse_scan_engine.
Proof.
  intros key rows. split.
  - apply insertion_sort_perm.
  - apply insertion_sort_sorted; intros a b Hab; lia.
Qed.
End engine_facts.

(** ** The review queue query *)

Section review_queue.
Context `{Helpers} `{!Buckets}.

#[local] Instance key_le_trans {A} (key : A → Z) :
  Transitive (λ a b, key a ≤ key b).
Proof. intros a b c ??. lia. Qed.

Lemma queue_rows_elem target_status table id row :
  (id, row) ∈ filter
      (λ o : ImageObj, where_clause (queue_statement target_status) o.2 = true)
      (map_to_list table)
  ↔ table !! id = Some row ∧ review_status row = target_status.
Proof.
  rewrite list_elem_of_filter, elem_of_map_to_list. simpl.
  rewrite bool_decide_eq_true. tauto.
Qed.

(** Either no row has the status and the query is empty, or the query
    yields exactly one row, an oldest one with the status. *)
Lemma run_select_queue eng target_status table :
  sorts eng →
  ((∀ id row, table !! id = Some row → review_status row ≠ target_status) ∧
   run_select eng (queue_statement target_status) table = [])
  ∨ (∃ id row, oldest_with_status table target_status id row ∧
       run_select eng (queue_statement target_status) table = [(id, row)]).
Proof.
  intros Heng. unfold run_select. simpl order_by_clause. simpl limit_clause.
  cbv zeta.
  set (rows := filter _ (map_to_list table)).
  destruct (Heng (λ o, created_at o.2) rows) as [Hperm Hsorted].
  destruct (eng (λ o, created_at o.2) rows) as [|[id row] rest] eqn:Heq.
  - left. split; [|done].
    intros id row Hin Hst.
    assert ((id, row) ∈ rows) as Hrow by (by apply queue_rows_elem).
    rewrite <- Hperm in Hrow. by apply not_elem_of_nil in Hrow.
  - right. exists id, row. split; [|done].
    assert ((id, row) ∈ rows) as Hrow by (rewrite <- Hperm; left).
    apply queue_rows_elem in Hrow as [Hin Hst].
    split; [done|]. split; [done|].
    intros id' row' Hin' Hst'.
    assert ((id', row') ∈ (id, row) :: rest) as Hrow'.
    { rewrite Hperm. by apply queue_rows_elem. }
    apply Sorted_StronglySorted in Hsorted; [|apply _].
    apply StronglySorted_cons in Hsorted as [Hall _].
    apply elem_of_cons in Hrow' as [Heq'|Hrest].
    + injection Heq' as -> ->. lia.
    + rewrite Forall_forall in Hall. apply (Hall _ Hrest).
Qed.

(** What the handler does once the query has run. *)
Lemma get_image_for_review_run eng db target_status :
  get_image_for_review target_status (get_session eng db) =
  match run_select eng (queue_statement target_status) (images db) with
  | [] => (Raise NoResultFound, get_session eng db)
  | [(id, row)] =>
      match get_team_number_from_id (created_by row) (users db) with
      | Some team =>
          (Return (review_metadata_of id row team), get_session eng db)
      | None => (Raise HelperError, get_session eng db)
      end
  | _ => (Raise MultipleResultsFound, get_session eng db)
  end.
Proof.
  unfold get_image_for_review, mbind, session_bind, session_exec, gets.
  simpl. fold (queue_statement target_status).
  destruct (run_select _ _ _) as [|[id row] [|??]]; simpl; try done.
  unfold call_helper. simpl.
  by destruct (get_team_number_from_id _ _).
Qed.
End review_queue.

(** ** GET /review-image *)

Section get_image_for_review_facts.
Context `{Helpers} `{!Buckets}.

(** C1. On a database with at least one image of the requested status,
    whose image creators all resolve to a team number, GET /review-image
    returns the [ReviewMetadata] of one image: the only row of the
    statement "where status, order by created_at ascending, limit 1",
    which has the requested status and the minimal [created_at] among
    the images with that status.  The session is left as it was. *)
Theorem get_image_for_review_oldest eng db target_status id0 row0 :
  sorts eng →
  images db !! id0 = Some row0 →
  review_status row0 = target_status →
  (∀ id row, images db !! id = Some row →
     is_Some (get_team_number_from_id (created_by row) (users db))) →
  ∃ id row team,
    run_select eng (queue_statement target_status) (images db) = [(id, row)] ∧
    oldest_with_status (images db) target_status id row ∧
    get_team_number_from_id (created_by row) (users db) = Some team ∧
    get_image_for_review target_status (get_session eng db) =
      (Return (review_metadata_of id row team), get_session eng db).
Proof.
  intros Heng Hin0 Hst0 Hteams.
  destruct (run_select_queue eng target_status (images db) Heng)
    as [[Hnone _]|(id & row & Hold & Hrun)].
  { by destruct (Hnone id0 row0 Hin0). }
  destruct (Hteams id row) as [team Hteam]; [by destruct Hold|].
  exists id, row, team. repeat split; try done; try apply Hold.
  by rewrite get_image_for_review_run, Hrun, Hteam.
Qed.

(** C9. In GET /review-image the [LookupError] branch is never taken:
    when no image has the requested status [one()] itself raises
    [NoResultFound] and the handler does not return; in every other
    case [one()] hands back a row of the image table, which is truthy
    and carries its primary key, so neither [LookupError] nor the
    assertion's [AssertionError] is raised. *)
Theorem get_image_for_review_LookupError_unreachable eng db target_status :
  sorts eng →
  (get_image_for_review target_status (get_session eng db)).1
    ≠ Raise LookupError ∧
  ((∀ id row, images db !! id = Some row →
      review_status row ≠ target_status) →
   (get_image_for_review target_status (get_session eng db)).1
     = Raise NoResultFound) ∧
  ((get_image_for_review target_status (get_session eng db)).1
     ≠ Raise NoResultFound →
   ∃ id row,
     run_select eng (queue_statement target_status) (images db) = [(id, row)] ∧
     images db !! id = Some row ∧
     truthy (id, row) = true ∧ image_id (id, row) = Some id ∧
     (get_image_for_review target_status (get_session eng db)).1
       ≠ Raise AssertionError).
Proof.
  intros Heng. rewrite get_image_for_review_run.
  destruct (run_select_queue eng target_status (images db) Heng)
    as [[Hnone ->]|(id & row & Hold & ->)]; simpl.
  - repeat split; try done.
  - destruct (get_team_number_from_id _ _); simpl.
    + split; [done|]. split.
      * intros Hnone. destruct Hold as (Hin & Hst & _).
        by destruct (Hnone id row Hin).
      * intros _. exists id, row. by destruct Hold.
    + split; [done|]. split.
      * intros Hnone. destruct Hold as (Hin & Hst & _).
        by destruct (Hnone id row Hin).
      * intros _. exists id, row. by destruct Hold.
Qed.

(** C10, as amended.  When at most one image of the requested status
    has the minimal [created_at], two calls on the same database give
    the same result, whichever order the engine leaves equal keys in. *)
Theorem get_image_for_review_deterministic eng1 eng2 db target_status :
  sorts eng1 → sorts eng2 →
  (∀ id1 row1 id2 row2,
     oldest_with_status (images db) target_status id1 row1 →
     oldest_with_status (images db) target_status id2 row2 →
     id1 = id2) →
  (get_image_for_review target_status (get_session eng1 db)).1 =
  (get_image_for_review target_status (get_session eng2 db)).1.
Proof.
  intros Heng1 Heng2 Huniq. rewrite !get_image_for_review_run.
  destruct (run_select_queue eng1 target_status (images db) Heng1)
    as [[Hnone1 ->]|(id1 & row1 & Hold1 & ->)];
  destruct (run_select_queue eng2 target_status (images db) Heng2)
    as [[Hnone2 ->]|(id2 & row2 & Hold2 & ->)]; simpl; try done.
  - destruct Hold2 as (Hin & Hst & _). by destruct (Hnone1 id2 row2 Hin).
  - destruct Hold1 as (Hin & Hst & _). by destruct (Hnone2 id1 row1 Hin).
  - assert (id1 = id2) as -> by eauto.
    assert (row1 = row2) as ->.
    { destruct Hold1 as [Hrow1 _], Hold2 as [Hrow2 _]. congruence. }
    by destruct (get_team_number_from_id _ _).
Qed.
End get_image_for_review_facts.

(** ** PUT /review-image *)

Section update_image_review_status_facts.
Context `{Helpers} `{!Buckets}.

(** The handler, case by case. *)
Lemma update_image_review_status_run eng db new_data remove_image :
  update_image_review_status new_data remove_image (get_session eng db) =
  match images db !! rm_id new_data with
  | None =>
      (Raise (HTTPException HTTP_404_NOT_FOUND "Image not found"),
       get_session eng db)
  | Some image =>
      if remove_image then
        let db' :=
          {| images := delete (rm_id new_data) (images db);
             users := users db;
             label_super_categories := label_super_categories db;
             label_categories := label_categories db |} in
        (Return (),
         {| committed := db'; pending := db'; commits := 1;
            engine := eng |})
      else
        match get_id_from_team_number (rm_created_by new_data) (users db) with
        | None => (Raise HelperError, get_session eng db)
        | Some created_by' =>
            let db' :=
              {| images :=
                   <[rm_id new_data :=
                       {| batch := rm_batch new_data;
                          created_at := rm_created_at new_data;
                          created_by := created_by';
                          annotations := rm_annotations new_data;
                          review_status := rm_review_status new_data;
                          image_columns := image_columns image |}]>
                     (images db);
                 users := users db;
                 label_super_categories := label_super_categories db;
                 label_categories := label_categories db |} in
            (Return (),
             {| committed := db'; pending := db'; commits := 1;
                engine := eng |})
        end
  end.
Proof.
  unfold update_image_review_status, mbind, session_bind,
    session_get_Image, gets. simpl.
  destruct (images db !! rm_id new_data) as [image|]; simpl; [|done].
  destruct remove_image; simpl; [done|].
  unfold call_helper. simpl.
  by destruct (get_id_from_team_number _ _).
Qed.

(** C2. With [remove_image = false], an image stored under
    [new_data.id] and a team number the helper converts to a user id,
    the handler returns, commits once, and the committed image table is
    the old one with that image's batch, created_at, created_by (the
    converted id), annotations and review_status replaced by the values
    of [new_data]; the other tables are as before. *)
Theorem update_image_review_status_edits eng db new_data image created_by' :
  images db !! rm_id new_data = Some image →
  get_id_from_team_number (rm_created_by new_data) (users db)
    = Some created_by' →
  let out := update_image_review_status new_data false (get_session eng db) in
  out.1 = Return () ∧
  commits out.2 = 1%nat ∧
  images (committed out.2) =
    <[rm_id new_data :=
        {| batch := rm_batch new_data;
           created_at := rm_created_at new_data;
           created_by := created_by';
           annotations := rm_annotations new_data;
           review_status := rm_review_status new_data;
           image_columns := image_columns image |}]> (images db) ∧
  users (committed out.2) = users db ∧
  label_super_categories (committed out.2) = label_super_categories db ∧
  label_categories (committed out.2) = label_categories db.
Proof.
  intros Himage Hteam out. subst out.
  rewrite update_image_review_status_run, Himage, Hteam. by simpl.
Qed.

(** C7. PUT /review-image raises HTTP 404 "Image not found" exactly
    when no image is stored under [new_data.id]; the session is then
    untouched: nothing is committed, nothing is pending, and the
    database is the one the request started with. *)
Theorem update_image_review_status_404 eng db new_data remove_image :
  let out :=
    update_image_review_status new_data remove_image (get_session eng db) in
  (out.1 = Raise (HTTPException 404 "Image not found")
     ↔ images db !! rm_id new_data = None) ∧
  (images db !! rm_id new_data = None →
     out.2 = get_session eng db ∧ commits out.2 = 0%nat ∧
     committed out.2 = db ∧ pending out.2 = db).
Proof.
  intros out. subst out. rewrite update_image_review_status_run.
  destruct (images db !! rm_id new_data) as [image|]; simpl.
  - split; [|done]. split; [|done].
    destruct remove_image; simpl; [done|].
    by destruct (get_id_from_team_number _ _).
  - done.
Qed.

(** C8. With [remove_image = true] and an image stored under
    [new_data.id], the handler returns, commits once, and the committed
    database is the old one without that image: no row is stored under
    the key any more, every other image and every other table is as
    before, and no value of [new_data] is written.  With
    [remove_image = false] every image key of the old database is still
    a key of the committed one, whatever the handler's outcome. *)
Theorem update_image_review_status_remove eng db new_data :
  (∀ image,
     images db !! rm_id new_data = Some image →
     let out := update_image_review_status new_data true (get_session eng db) in
     out.1 = Return () ∧
     commits out.2 = 1%nat ∧
     images (committed out.2) = delete (rm_id new_data) (images db) ∧
     images (committed out.2) !! rm_id new_data = None ∧
     (∀ id, id ≠ rm_id new_data →
        images (committed out.2) !! id = images db !! id) ∧
     users (committed out.2) = users db ∧
     label_super_categories (committed out.2) = label_super_categories db ∧
     label_categories (committed out.2) = label_categories db) ∧
  (∀ id,
     let out := update_image_review_status new_data false (get_session eng db) in
     is_Some (images db !! id) → is_Some (images (committed out.2) !! id)).
Proof.
  split.
  - intros image Himage out. subst out.
    rewrite update_image_review_status_run, Himage. simpl.
    repeat split; try done.
    + apply lookup_delete_eq.
    + intros id Hne. by apply lookup_delete_ne.
  - intros id out. subst out.
    rewrite update_image_review_status_run.
    destruct (images db !! rm_id new_data) as [image|] eqn:Himage;
      simpl; [|done].
    destruct (get_id_from_team_number _ _); simpl; [|done].
    intros Hid. destruct (decide (rm_id new_data = id)) as [->|Hne].
    + rewrite lookup_insert_eq. by eexists.
    + by rewrite lookup_insert_ne.
Qed.
End update_image_review_status_facts.

(** ** The dispatcher *)

Section dispatch_facts.
Context `{Helpers} `{!Buckets}.

Lemma serve_run eng c app :
  serve eng c app =
  if negb (rate_limit c app).1 then
    (TooManyRequests,
     {| database := database app; limiters := (rate_limit c app).2 |})
  else if negb (authorized c) then
    (Forbidden,
     {| database := database app; limiters := (rate_limit c app).2 |})
  else
    (Served (handler (request c) (get_session eng (database app))).1,
     {| database :=
          committed (handler (request c) (get_session eng (database app))).2;
        limiters := (rate_limit c app).2 |}).
Proof.
  unfold serve. destruct (rate_limit c app) as [admitted lim]. simpl.
  destruct admitted; simpl; [|done].
  destruct (authorized c); simpl; [|done].
  by destruct (handler _ _).
Qed.

(** The category routes carry no limiter: the call is always admitted
    and no limiter state moves. *)
Lemma rate_limit_category_routes c app :
  route_of (request c) = route_create_label_category ∨
  route_of (request c) = route_create_label_super_category →
  rate_limit c app = (true, limiters app).
Proof. unfold rate_limit. by intros [-> | ->]. Qed.

(** C3. Every route other than /change-user-role and /token declares
    [minimum_role(UserRole.MODERATOR)].  For a request to such a route
    that its limiter admits: a user whose role is at least MODERATOR in
    the hierarchy is let through to the handler body, and a user with a
    strictly lower role is refused without the handler body running,
    the database being left as it was. *)
Theorem minimum_role_MODERATOR_guards eng c app :
  route_of (request c) ≠ route_change_user_role →
  route_of (request c) ≠ route_redirect_token →
  security_of (route_of (request c)) = Some (minimum_role MODERATOR) ∧
  ((rate_limit c app).1 = true →
   (role_level MODERATOR ≤ role_level (role (current_user c)) →
      (serve eng c app).1 =
        Served (handler (request c) (get_session eng (database app))).1) ∧
   (role_level (role (current_user c)) < role_level MODERATOR →
      (serve eng c app).1 = Forbidden ∧
      database (serve eng c app).2 = database app)).
Proof.
  intros Hrole Htoken.
  assert (security_of (route_of (request c)) = Some (minimum_role MODERATOR))
    as Hsec by (by destruct (route_of (request c))).
  split; [done|]. intros Hadmit.
  rewrite serve_run, Hadmit. simpl. unfold authorized. rewrite Hsec. simpl.
  split; intros Hlevel.
  - by rewrite bool_decide_eq_true_2.
  - rewrite bool_decide_eq_false_2 by lia. by simpl.
Qed.

(** C4. A request to PUT /change-user-role that the limiter admits is
    refused, with the database untouched, unless the caller holds the
    ADMIN role.  For a caller holding it, when the helper finds the
    named user in the user table, the committed user table is the old
    one with that user's role set to [new_role]: the user's other
    fields and every other user are as before, and so are the other
    tables. *)
Theorem change_user_role_by_admin eng c app name new_role :
  request c = PUT_change_user_role name new_role →
  (rate_limit c app).1 = true →
  (role (current_user c) ≠ ADMIN →
     (serve eng c app).1 = Forbidden ∧
     database (serve eng c app).2 = database app) ∧
  (role (current_user c) = ADMIN →
   ∀ id user,
     get_user_from_username name (users (database app))
       = Some (id, user) →
     users (database app) !! id = Some user →
     (serve eng c app).1 = Served (Return body_null) ∧
     users (database (serve eng c app).2) =
       <[id := {| username := username user;
                  team_number := team_number user;
                  role := new_role;
                  user_columns := user_columns user |}]>
         (users (database app)) ∧
     (∀ id', id' ≠ id →
        users (database (serve eng c app).2) !! id' =
        users (database app) !! id') ∧
     images (database (serve eng c app).2) = images (database app) ∧
     label_super_categories (database (serve eng c app).2) =
       label_super_categories (database app) ∧
     label_categories (database (serve eng c app).2) =
       label_categories (database app)).
Proof.
  intros Hreq Hadmit.
  rewrite serve_run, Hadmit. simpl. unfold authorized. rewrite Hreq. simpl.
  split.
  - intros Hne. by rewrite bool_decide_eq_false_2.
  - intros Hadmin id user Hfind Hrow.
    rewrite bool_decide_eq_true_2 by done. simpl.
    unfold change_user_role, mbind, session_bind, call_helper. simpl.
    rewrite Hfind. simpl. repeat split; try done.
    intros id' Hne. by rewrite lookup_insert_ne.
Qed.

(** C6. A caller whose role is at least MODERATOR gets every request to
    PUT /categories/create and PUT /categories/super/create served: the
    given category is appended to its table and committed, the rows
    already in that table keep their place, and the other tables and
    the limiters are as before. *)
Theorem create_label_category_appends eng c app :
  role_level MODERATOR ≤ role_level (role (current_user c)) →
  (∀ category,
     request c = PUT_categories_create category →
     serve eng c app =
       (Served (Return body_null),
        {| database :=
             {| images := images (database app);
                users := users (database app);
                label_super_categories :=
                  label_super_categories (database app);
                label_categories :=
                  label_categories (database app) ++ [category] |};
           limiters := limiters app |})) ∧
  (∀ category,
     request c = PUT_categories_super_create category →
     serve eng c app =
       (Served (Return body_null),
        {| database :=
             {| images := images (database app);
                users := users (database app);
                label_super_categories :=
                  label_super_categories (database app) ++ [category];
                label_categories := label_categories (database app) |};
           limiters := limiters app |})).
Proof.
  intros Hlevel. split; intros category Hreq.
  - rewrite serve_run, rate_limit_category_routes by (rewrite Hreq; by left).
    simpl. unfold authorized. rewrite Hreq. simpl.
    by rewrite bool_decide_eq_true_2.
  - rewrite serve_run, rate_limit_category_routes by (rewrite Hreq; by right).
    simpl. unfold authorized. rewrite Hreq. simpl.
    by rewrite bool_decide_eq_true_2.
Qed.
End dispatch_facts.

(** ** The category routes and the limiter *)

Section category_routes_unlimited.
Context `{Helpers} `{!Buckets}.

(** However many requests a moderator sends to the category routes, and
    however close together, each one is served. *)
Lemma serve_all_category_routes eng cs app :
  Forall (λ c,
    (route_of (request c) = route_create_label_category ∨
     route_of (request c) = route_create_label_super_category) ∧
    authorized c = true) cs →
  Forall (λ r, ∃ x, r = Served x) (serve_all eng cs app).1.
Proof.
  intros Hcs. revert app.
  induction Hcs as [|c cs [Hroute Hauth] _ IH]; intros app; simpl.
  { constructor. }
  rewrite serve_run, (rate_limit_category_routes _ _ Hroute), Hauth. simpl.
  specialize (IH
    {| database :=
         committed (handler (request c) (get_session eng (database app))).2;
       limiters := limiters app |}).
  destruct (serve_all eng cs _) as [rs app'']. simpl in *.
  constructor; [by eexists|done].
Qed.
End category_routes_unlimited.

(** ** The theorems at work on the sample database *)

(** Case analysis on a lookup in a map written as a chain of inserts. *)
Ltac lookup_cases H :=
  repeat (rewrite lookup_insert in H; case_decide; [simplify_eq/=|]);
  try (rewrite lookup_empty in H; discriminate).

Section sample_facts.
#[local] Existing Instance sample_models.
#[local] Existing Instance sample_helpers.
#[local] Existing Instance sample_buckets.

Lemma sample_db_creators_resolve id row :
  images sample_db !! id = Some row →
  is_Some (get_team_number_from_id (created_by row) (users sample_db)).
Proof.
  intros Hrow. unfold sample_db in Hrow. simpl in Hrow.
  lookup_cases Hrow; by eexists.
Qed.

Lemma sample_db_no_tie_unique id1 row1 id2 row2 :
  oldest_with_status (images sample_db_no_tie) PENDING id1 row1 →
  oldest_with_status (images sample_db_no_tie) PENDING id2 row2 →
  id1 = id2.
Proof.
  assert (∀ id row, oldest_with_status (images sample_db_no_tie) PENDING id row
                    → id = 1%N) as Hone.
  { intros id row (Hrow & Hst & Hmin).
    specialize (Hmin 1%N (sample_image 10 7 PENDING) eq_refl eq_refl).
    unfold sample_db_no_tie in Hrow. simpl in Hrow.
    lookup_cases Hrow; try done; simpl in Hmin; lia. }
  intros Hold1 Hold2.
  by rewrite (Hone _ _ Hold1), (Hone _ _ Hold2).
Qed.

(** GET /review-image on the sample database: image 2, one of the two
    oldest pending images, comes back. *)
Lemma get_image_for_review_oldest_witness :
  ∃ id row team,
    run_select scan_order_engine (queue_statement PENDING) (images sample_db)
      = [(id, row)] ∧
    oldest_with_status (images sample_db) PENDING id row ∧
    get_team_number_from_id (created_by row) (users sample_db) = Some team ∧
    get_image_for_review PENDING (get_session scan_order_engine sample_db) =
      (Return (review_metadata_of id row team),
       get_session scan_order_engine sample_db).
Proof.
  apply (get_image_for_review_oldest scan_order_engine sample_db PENDING
           1%N (sample_image 10 7 PENDING)).
  - apply scan_order_engine_sorts.
  - reflexivity.
  - reflexivity.
  - apply sample_db_creators_resolve.
Defined.

Lemma get_image_for_review_LookupError_unreachable_witness :
  (get_image_for_review APPROVED (get_session scan_order_engine sample_db)).1
    ≠ Raise LookupError ∧
  (get_image_for_review APPROVED (get_session scan_order_engine sample_db)).1
    ≠ Raise AssertionError.
Proof.
  destruct (get_image_for_review_LookupError_unreachable
              scan_order_engine sample_db APPROVED scan_order_engine_sorts)
    as (Hlookup & _ & Hrow).
  split; [exact Hlookup|].
  destruct Hrow as (id & row & _ & _ & _ & _ & Hassert).
  - vm_compute. discriminate.
  - exact Hassert.
Defined.

(** C10 fails as stated: images 1 and 2 of the sample database are
    pending and equally old, both engines sort, and the two calls hand
    back different images. *)
Lemma get_image_for_review_tie_two_answers :
  sorts scan_order_engine ∧ sorts reverse_scan_engine ∧
  (get_image_for_review PENDING (get_session scan_order_engine sample_db)).1
    = Return (review_metadata_of 2%N (sample_image 10 8 PENDING) 1678) ∧
  (get_image_for_review PENDING (get_session reverse_scan_engine sample_db)).1
    = Return (review_metadata_of 1%N (sample_image 10 7 PENDING) 254) ∧
  (get_image_for_review PENDING (get_session scan_order_engine sample_db)).1
    ≠ (get_image_for_review PENDING
         (get_session reverse_scan_engine sample_db)).1.
Proof.
  split; [apply scan_order_engine_sorts|].
  split; [apply reverse_scan_engine_sorts|].
  split; [by vm_compute|]. split; [by vm_compute|].
  vm_compute. discriminate.
Qed.

Lemma get_image_for_review_deterministic_witness :
  (get_image_for_review PENDING
     (get_session scan_order_engine sample_db_no_tie)).1 =
  (get_image_for_review PENDING
     (get_session reverse_scan_engine sample_db_no_tie)).1.
Proof.
  apply (get_image_for_review_deterministic
           scan_order_engine reverse_scan_engine sample_db_no_tie PENDING).
  - apply scan_order_engine_sorts.
  - apply reverse_scan_engine_sorts.
  - apply sample_db_no_tie_unique.
Defined.

(** PUT /review-image with [sample_review]: image 1 is rewritten. *)
Lemma update_image_review_status_edits_witness :
  let out := update_image_review_status sample_review false
               (get_session scan_order_engine sample_db) in
  out.1 = Return () ∧
  commits out.2 = 1%nat ∧
  images (committed out.2) =
    <[1%N := {| batch := 2; created_at := 11; created_by := 8;
                annotations := "[cone]"; review_status := APPROVED;
                image_columns := () |}]> (images sample_db) ∧
  users (committed out.2) = users sample_db ∧
  label_super_categories (committed out.2) = label_super_categories sample_db ∧
  label_categories (committed out.2) = label_categories sample_db.
Proof.
  apply (update_image_review_status_edits scan_order_engine sample_db
           sample_review (sample_image 10 7 PENDING) 8).
  - reflexivity.
  - vm_compute. reflexivity.
Defined.

(** PUT /review-image with [stray_review]: 404, nothing touched. *)
Lemma update_image_review_status_404_witness :
  (update_image_review_status stray_review false
     (get_session scan_order_engine sample_db)).1
    = Raise (HTTPException 404 "Image not found") ∧
  (update_image_review_status stray_review false
     (get_session scan_order_engine sample_db)).2
    = get_session scan_order_engine sample_db.
Proof.
  destruct (update_image_review_status_404 scan_order_engine sample_db
              stray_review false) as [Hiff Hsame].
  split.
  - apply Hiff. reflexivity.
  - apply Hsame. reflexivity.
Defined.

(** PUT /review-image with [remove_image]: image 1 goes, image 2 stays. *)
Lemma update_image_review_status_remove_witness :
  images (committed (update_image_review_status sample_review true
            (get_session scan_order_engine sample_db)).2) !! 1%N = None ∧
  images (committed (update_image_review_status sample_review true
            (get_session scan_order_engine sample_db)).2) !! 2%N
    = images sample_db !! 2%N ∧
  is_Some (images (committed (update_image_review_status sample_review false
            (get_session scan_order_engine sample_db)).2) !! 2%N).
Proof.
  destruct (update_image_review_status_remove scan_order_engine sample_db
              sample_review) as [Hremove Hkeep].
  destruct (Hremove (sample_image 10 7 PENDING) eq_refl)
    as (_ & _ & _ & Hgone & Hothers & _).
  split; [exact Hgone|]. split.
  - apply Hothers. discriminate.
  - apply Hkeep. by eexists.
Defined.

(** A moderator is let through to GET /review-image, a team account is
    not. *)
Lemma minimum_role_MODERATOR_guards_witness :
  (serve scan_order_engine (sample_call alice (GET_review_image PENDING))
     sample_app).1 =
    Served (handler (GET_review_image PENDING)
              (get_session scan_order_engine sample_db)).1 ∧
  (serve scan_order_engine (sample_call bob (GET_review_image PENDING))
     sample_app).1 = Forbidden.
Proof.
  split.
  - apply (@minimum_role_MODERATOR_guards sample_models sample_helpers
             sample_buckets scan_order_engine
             (sample_call alice (@GET_review_image sample_models PENDING)) sample_app);
      [discriminate|discriminate|reflexivity|].
    simpl. lia.
  - apply (@minimum_role_MODERATOR_guards sample_models sample_helpers
             sample_buckets scan_order_engine
             (sample_call bob (@GET_review_image sample_models PENDING)) sample_app);
      [discriminate|discriminate|reflexivity|].
    simpl. lia.
Defined.

(** An admin makes bob a moderator; a moderator may not. *)
Lemma change_user_role_by_admin_witness :
  (serve scan_order_engine
     (sample_call carol (PUT_change_user_role "bob" MOD)) sample_app).1
    = Served (Return body_null) ∧
  users (database (serve scan_order_engine
     (sample_call carol (PUT_change_user_role "bob" MOD)) sample_app).2)
    = <[8 := sample_user "bob" 1678 MOD]> sample_users ∧
  (serve scan_order_engine
     (sample_call alice (PUT_change_user_role "bob" MOD)) sample_app).1
    = Forbidden.
Proof.
  destruct (@change_user_role_by_admin sample_models sample_helpers
              sample_buckets scan_order_engine
              (sample_call carol (@PUT_change_user_role sample_models "bob" MOD))
              sample_app "bob" MOD eq_refl eq_refl) as [_ Hadmin].
  destruct (Hadmin eq_refl 8 bob) as (Hserved & Husers & _).
  { vm_compute. reflexivity. }
  { reflexivity. }
  destruct (@change_user_role_by_admin sample_models sample_helpers
              sample_buckets scan_order_engine
              (sample_call alice (@PUT_change_user_role sample_models "bob" MOD))
              sample_app "bob" MOD eq_refl eq_refl) as [Hother _].
  split; [exact Hserved|]. split; [exact Husers|].
  apply Hother. discriminate.
Defined.

(** A moderator adds the category "cube". *)
Lemma create_label_category_appends_witness :
  label_categories (database (serve scan_order_engine
     (sample_call alice (PUT_categories_create "cube"%string))
     sample_app).2) = ["cone"; "cube"]%string.
Proof.
  destruct (@create_label_category_appends sample_models sample_helpers
              sample_buckets scan_order_engine
              (sample_call alice (@PUT_categories_create sample_models "cube"%string))
              sample_app) as [Hcreate _].
  { simpl. lia. }
  rewrite (Hcreate "cube"%string eq_refl). reflexivity.
Defined.

(** C5 at the failing input: six requests to PUT /categories/create from
    one client at the same instant are all served, and six rows are
    added; the same six requests sent to GET /review-image hit the
    limit of five. *)
Theorem create_label_category_not_rate_limited :
  rate_limiter_of route_create_label_category = None ∧
  rate_limiter_of route_create_label_super_category = None ∧
  (serve_all scan_order_engine
     (replicate 6 (sample_call alice (PUT_categories_create "cube"%string)))
     sample_app).1 = replicate 6 (Served (Return body_null)) ∧
  label_categories (database (serve_all scan_order_engine
     (replicate 6 (sample_call alice (PUT_categories_create "cube"%string)))
     sample_app).2) = ("cone" :: replicate 6 "cube")%string ∧
  last (serve_all scan_order_engine
     (replicate 6 (sample_call alice (GET_review_image PENDING)))
     sample_app).1 = Some TooManyRequests.
Proof. repeat split; by vm_compute. Qed.
End sample_facts.

(** ** What a request does to the session *)

Section handler_facts.
Context `{Helpers} `{!Buckets}.

Lemma change_user_role_run eng db name new_role :
  change_user_role name new_role (get_session eng db) =
  match get_user_from_username name (users db) with
  | None => (Raise HelperError, get_session eng db)
  | Some user =>
      let db' :=
        {| images := images db;
           users := <[user.1 := set_role new_role user.2]> (users db);
           label_super_categories := label_super_categories db;
           label_categories := label_categories db |} in
      (Return (),
       {| committed := db'; pending := db'; commits := 1; engine := eng |})
  end.
Proof.
  unfold change_user_role, mbind, session_bind, call_helper. simpl.
  by destruct (get_user_from_username _ _).
Qed.

(** The handler of each request, run on a fresh session. *)
Lemma handler_run eng db req :
  handler req (get_session eng db) =
  match req with
  | GET_review_image target_status =>
      match get_image_for_review target_status (get_session eng db) with
      | (Return m, s) => (Return (body_ReviewMetadata m), s)
      | (Raise e, s) => (Raise e, s)
      end
  | PUT_review_image new_data remove_image =>
      match update_image_review_status new_data remove_image
              (get_session eng db) with
      | (Return _, s) => (Return body_null, s)
      | (Raise e, s) => (Raise e, s)
      end
  | GET_image image_id =>
      (Return (body_file (buckets_get_image image_id)), get_session eng db)
  | POST_token => (Return (body_redirect "/token" 307), get_session eng db)
  | PUT_change_user_role name new_role =>
      match change_user_role name new_role (get_session eng db) with
      | (Return _, s) => (Return body_null, s)
      | (Raise e, s) => (Raise e, s)
      end
  | PUT_categories_super_create category =>
      let db' :=
        {| images := images db; users := users db;
           label_super_categories := label_super_categories db ++ [category];
           label_categories := label_categories db |} in
      (Return body_null,
       {| committed := db'; pending := db'; commits := 1; engine := eng |})
  | PUT_categories_create category =>
      let db' :=
        {| images := images db; users := users db;
           label_super_categories := label_super_categories db;
           label_categories := label_categories db ++ [category] |} in
      (Return body_null,
       {| committed := db'; pending := db'; commits := 1; engine := eng |})
  end.
Proof.
  by destruct req.
Qed.

(** A raising handler leaves the session as it found it; a returning one
    has committed everything it did, in at most one commit. *)
Lemma handler_session eng db req :
  (∀ e, (handler req (get_session eng db)).1 = Raise e →
        (handler req (get_session eng db)).2 = get_session eng db) ∧
  pending (handler req (get_session eng db)).2
    = committed (handler req (get_session eng db)).2 ∧
  (commits (handler req (get_session eng db)).2 ≤ 1)%nat ∧
  ((commits (handler req (get_session eng db)).2 = 0)%nat →
   committed (handler req (get_session eng db)).2 = db).
Proof.
  rewrite handler_run. destruct req; simpl.
  - rewrite get_image_for_review_run.
    destruct (run_select _ _ _) as [|[id row] [|??]]; simpl; try done.
    + repeat split; try done; lia.
    + destruct (get_team_number_from_id _ _); simpl;
        repeat split; try done; lia.
    + repeat split; try done; lia.
  - rewrite update_image_review_status_run.
    destruct (images db !! rm_id new_data); simpl.
    + destruct remove_image; simpl; [repeat split; try done; lia|].
      destruct (get_id_from_team_number _ _); simpl;
        repeat split; try done; lia.
    + repeat split; try done; lia.
  - repeat split; try done; lia.
  - repeat split; try done; lia.
  - rewrite change_user_role_run.
    destruct (get_user_from_username _ _); simpl;
      repeat split; try done; lia.
  - repeat split; try done; lia.
  - repeat split; try done; lia.
Qed.
End handler_facts.

(** ** Properties of single requests *)

Section request_facts.
Context `{Helpers} `{!Buckets}.

(** What a value returned by [get_image_for_review] is made of. *)
Lemma get_image_for_review_returns eng db target_status m :
  sorts eng →
  (get_image_for_review target_status (get_session eng db)).1 = Return m →
  ∃ row,
    oldest_with_status (images db) target_status (rm_id m) row ∧
    get_team_number_from_id (created_by row) (users db)
      = Some (rm_created_by m) ∧
    m = review_metadata_of (rm_id m) row (rm_created_by m).
Proof.
  intros Heng. rewrite get_image_for_review_run.
  destruct (run_select_queue eng target_status (images db) Heng)
    as [[_ ->]|(id & row & Hold & ->)]; simpl; [done|].
  destruct (get_team_number_from_id _ _) as [team|] eqn:Hteam; simpl; [|done].
  intros [= <-]. simpl. by exists row.
Qed.

(** The statement's [limit(1)] leaves [one()] at most one row. *)
Lemma run_select_queue_length eng target_status table :
  (length (run_select eng (queue_statement target_status) table) ≤ 1)%nat.
Proof.
  unfold run_select. simpl. rewrite length_take. lia.
Qed.

(** X1.  Whatever the engine does with ORDER BY, GET /review-image never fails
    with [MultipleResultsFound], [LookupError] or [AssertionError]: the
    limit of one row keeps [one()] from seeing two, and a row it hands
    back is truthy and has its key. *)
Theorem get_image_for_review_never_multiple eng db target_status :
  (get_image_for_review target_status (get_session eng db)).1
    ≠ Raise MultipleResultsFound ∧
  (get_image_for_review target_status (get_session eng db)).1
    ≠ Raise LookupError ∧
  (get_image_for_review target_status (get_session eng db)).1
    ≠ Raise AssertionError.
Proof.
  rewrite get_image_for_review_run.
  pose proof (run_select_queue_length eng target_status (images db)) as Hlen.
  destruct (run_select _ _ _) as [|[id row] [|??]]; simpl in *;
    [done| |lia].
  by destruct (get_team_number_from_id _ _).
Qed.

(** X2.  A [ReviewMetadata] that GET /review-image returns describes a stored
    image: the row under its id has the requested status, is an oldest
    one with that status, and supplies the returned annotations,
    created_at, batch and review_status; the returned team number is what
    the helper makes of the row's creator. *)
Theorem get_image_for_review_sound eng db target_status m :
  sorts eng →
  (get_image_for_review target_status (get_session eng db)).1 = Return m →
  rm_review_status m = target_status ∧
  ∃ row,
    images db !! rm_id m = Some row ∧
    oldest_with_status (images db) target_status (rm_id m) row ∧
    rm_annotations m = annotations row ∧
    rm_created_at m = created_at row ∧
    rm_batch m = batch row ∧
    rm_review_status m = review_status row ∧
    get_team_number_from_id (created_by row) (users db)
      = Some (rm_created_by m).
Proof.
  intros Heng Hret.
  destruct (get_image_for_review_returns _ _ _ _ Heng Hret)
    as (row & Hold & Hteam & Hm).
  assert (rm_review_status m = review_status row) as Hst by (by rewrite Hm).
  split.
  - rewrite Hst. by destruct Hold as (_ & ? & _).
  - exists row. rewrite Hm. simpl. repeat split; try done; apply Hold.
Qed.

(** X3.  GET /review-image, GET /image/{image_id} and POST /token are
    read-only: whoever calls, and whatever the response, the database
    after the request is the database before it. *)
Theorem read_only_routes eng c app :
  route_of (request c) = route_get_image_for_review ∨
  route_of (request c) = route_get_image ∨
  route_of (request c) = route_redirect_token →
  database (serve eng c app).2 = database app.
Proof.
  intros Hroute. rewrite serve_run.
  destruct (negb (rate_limit c app).1); [done|].
  destruct (negb (authorized c)); [done|]. simpl.
  destruct (handler_session eng (database app) (request c))
    as (_ & _ & _ & Hzero).
  apply Hzero. rewrite handler_run.
  destruct (request c); simpl in *; try done;
    try (by destruct Hroute as [?|[?|?]]).
  rewrite get_image_for_review_run.
  destruct (run_select _ _ _) as [|[id row] [|??]]; simpl; try done.
  by destruct (get_team_number_from_id _ _).
Qed.

(** X4.  POST /token declares no role dependency: every caller the limiter
    lets through, whatever the caller's role, is answered with a 307
    redirect to "/token". *)
Theorem redirect_token_for_everyone eng c app :
  request c = POST_token →
  (rate_limit c app).1 = true →
  (serve eng c app).1 = Served (Return (body_redirect "/token" 307)).
Proof.
  intros Hreq Hallowed. rewrite serve_run, Hallowed. simpl.
  unfold authorized. by rewrite Hreq.
Qed.

(** X5.  A request that the limiter or the role dependency refuses, or whose
    handler raises, leaves the database as it was: handlers commit last. *)
Theorem failed_request_changes_nothing eng c app :
  ((serve eng c app).1 = TooManyRequests →
     database (serve eng c app).2 = database app) ∧
  ((serve eng c app).1 = Forbidden →
     database (serve eng c app).2 = database app) ∧
  (∀ e, (serve eng c app).1 = Served (Raise e) →
     database (serve eng c app).2 = database app).
Proof.
  rewrite serve_run.
  destruct (negb (rate_limit c app).1); [done|].
  destruct (negb (authorized c)); [done|]. simpl.
  repeat split; try done.
  intros e [= Hraise].
  destruct (handler_session eng (database app) (request c)) as (Hsame & _).
  by rewrite (Hsame e Hraise).
Qed.

(** X6.  Every handler issues at most one commit.  One that raises has issued
    none and the committed database is untouched; one that returns has
    nothing uncommitted left in its session. *)
Theorem handler_commits_at_most_once eng db req :
  (commits (handler req (get_session eng db)).2 ≤ 1)%nat ∧
  (∀ e, (handler req (get_session eng db)).1 = Raise e →
     commits (handler req (get_session eng db)).2 = 0%nat ∧
     committed (handler req (get_session eng db)).2 = db) ∧
  (∀ b, (handler req (get_session eng db)).1 = Return b →
     pending (handler req (get_session eng db)).2
       = committed (handler req (get_session eng db)).2).
Proof.
  destruct (handler_session eng db req) as (Hraise & Hpending & Hone & _).
  split; [done|]. split.
  - intros e He. by rewrite (Hraise e He).
  - done.
Qed.
End request_facts.

(** ** How the review requests compose *)

Section review_composition.
Context `{Helpers} `{!Buckets}.

(** X7.  Sending back, unchanged, the metadata GET /review-image returned
    rewrites the image with the values it already has, provided the
    helper maps the returned team number back to the image's creator:
    the committed database is the one before the request. *)
Theorem put_back_review_metadata eng eng' db target_status m :
  sorts eng →
  (get_image_for_review target_status (get_session eng db)).1 = Return m →
  (∀ row, images db !! rm_id m = Some row →
     get_id_from_team_number (rm_created_by m) (users db)
       = Some (created_by row)) →
  (update_image_review_status m false (get_session eng' db)).1 = Return () ∧
  committed (update_image_review_status m false (get_session eng' db)).2 = db.
Proof.
  intros Heng Hret Hback.
  destruct (get_image_for_review_returns _ _ _ _ Heng Hret)
    as (row & (Hrow & _) & _ & Hm).
  rewrite update_image_review_status_run, Hrow, (Hback row Hrow). simpl.
  split; [done|].
  rewrite Hm. simpl. destruct db as [imgs usrs supers cats]. simpl in *.
  f_equal. apply insert_id. rewrite Hrow. by destruct row.
Qed.

(** X8.  An edit is idempotent: sending the same PUT /review-image a second
    time, on the database the first one committed, returns again and
    commits the same database. *)
Theorem update_image_review_status_idempotent eng db new_data image created_by' :
  images db !! rm_id new_data = Some image →
  get_id_from_team_number (rm_created_by new_data) (users db)
    = Some created_by' →
  let db1 :=
    committed (update_image_review_status new_data false
                 (get_session eng db)).2 in
  (update_image_review_status new_data false (get_session eng db1)).1
    = Return () ∧
  committed (update_image_review_status new_data false
               (get_session eng db1)).2 = db1.
Proof.
  intros Himage Hteam db1. subst db1.
  rewrite (update_image_review_status_run eng db), Himage, Hteam. simpl.
  rewrite update_image_review_status_run. simpl.
  rewrite lookup_insert_eq, Hteam. simpl.
  split; [done|]. f_equal. apply insert_insert_eq.
Qed.


(** X10.  A reviewed image leaves the queue.  After a PUT /review-image that
    returned, GET /review-image for a status does not return the image
    again if the image was removed, or if the review gave it another
    status. *)
Theorem reviewed_image_leaves_queue eng eng' db new_data remove_image
    target_status m :
  sorts eng' →
  (update_image_review_status new_data remove_image (get_session eng db)).1
    = Return () →
  (remove_image = false → rm_review_status new_data ≠ target_status) →
  (get_image_for_review target_status
     (get_session eng'
        (committed (update_image_review_status new_data remove_image
                      (get_session eng db)).2))).1 = Return m →
  rm_id m ≠ rm_id new_data.
Proof.
  intros Heng Hput Hstatus Hget Hid.
  destruct (get_image_for_review_returns _ _ _ _ Heng Hget)
    as (row & (Hrow & Hst & _) & _).
  revert Hput Hrow. rewrite update_image_review_status_run, Hid.
  destruct (images db !! rm_id new_data) as [image|]; simpl; [|done].
  destruct remove_image; simpl.
  - intros _. by rewrite lookup_delete_eq.
  - destruct (get_id_from_team_number _ _); simpl; [|done].
    intros _. rewrite lookup_insert_eq. intros [= <-].
    by apply Hstatus.
Qed.

(** X11.  The keys of the image table under PUT /review-image.  Without
    [remove_image] the table keeps exactly its keys, whatever the
    outcome: an edit never creates an image.  With [remove_image] the
    only key that can go is [new_data.id]. *)
Theorem update_image_review_status_keys eng db new_data :
  dom (images (committed (update_image_review_status new_data false
                            (get_session eng db)).2))
    = dom (images db) ∧
  dom (images (committed (update_image_review_status new_data true
                            (get_session eng db)).2))
    = dom (images db) ∖ {[rm_id new_data]}.
Proof.
  rewrite !update_image_review_status_run.
  destruct (images db !! rm_id new_data) as [image|] eqn:Himage; simpl.
  - split; [|by rewrite dom_delete_L].
    destruct (get_id_from_team_number _ _); simpl; [|done].
    rewrite dom_insert_L. apply subseteq_union_1_L.
    apply singleton_subseteq_l. by apply elem_of_dom.
  - split; [done|].
    symmetry. apply difference_disjoint_L, disjoint_singleton_r.
    by apply not_elem_of_dom.
Qed.

(** X12.  Removing an image takes nothing but its id from the request body:
    two bodies with the same id have the same effect, and the team number
    in the body is not looked up. *)
Theorem remove_image_needs_only_id eng db new_data new_data' :
  rm_id new_data = rm_id new_data' →
  update_image_review_status new_data true (get_session eng db) =
  update_image_review_status new_data' true (get_session eng db).
Proof.
  intros Hid. rewrite !update_image_review_status_run, Hid.
  by destruct (images db !! rm_id new_data').
Qed.
End review_composition.

(** ** Which request writes which table *)

Section frame_facts.
Context `{Helpers} `{!Buckets}.

(** The committed database of a handler, table by table. *)
Lemma handler_writes eng db req :
  let db' := committed (handler req (get_session eng db)).2 in
  (∀ id, (∀ new_data remove_image,
            req = PUT_review_image new_data remove_image →
            rm_id new_data ≠ id) →
         images db' !! id = images db !! id) ∧
  ((∀ name new_role, req ≠ PUT_change_user_role name new_role) →
     users db' = users db) ∧
  label_super_categories db `prefix_of` label_super_categories db' ∧
  label_categories db `prefix_of` label_categories db'.
Proof.
  rewrite handler_run. destruct req; simpl.
  - rewrite get_image_for_review_run.
    destruct (run_select _ _ _) as [|[id row] [|??]]; simpl; try done.
    by destruct (get_team_number_from_id _ _).
  - rewrite update_image_review_status_run.
    destruct (images db !! rm_id new_data) as [image|]; simpl; [|done].
    destruct remove_image; simpl.
    + repeat split; try done. intros id Hid.
      apply lookup_delete_ne. by eapply Hid.
    + destruct (get_id_from_team_number _ _); simpl; [|done].
      repeat split; try done. intros id Hid.
      apply lookup_insert_ne. by eapply Hid.
  - done.
  - done.
  - rewrite change_user_role_run.
    destruct (get_user_from_username _ _) as [user|]; simpl; [|done].
    repeat split; try done. intros Hne. exfalso. by eapply Hne.
  - repeat split; try done. by apply prefix_app_r.
  - repeat split; try done. by apply prefix_app_r.
Qed.

Lemma serve_writes eng c app :
  (∀ id, (∀ new_data remove_image,
            request c = PUT_review_image new_data remove_image →
            rm_id new_data ≠ id) →
         images (database (serve eng c app).2) !! id
           = images (database app) !! id) ∧
  ((∀ name new_role, request c ≠ PUT_change_user_role name new_role) →
     users (database (serve eng c app).2) = users (database app)) ∧
  label_super_categories (database app)
    `prefix_of` label_super_categories (database (serve eng c app).2) ∧
  label_categories (database app)
    `prefix_of` label_categories (database (serve eng c app).2).
Proof.
  rewrite serve_run.
  destruct (negb (rate_limit c app).1); [done|].
  destruct (negb (authorized c)); [done|]. simpl.
  apply handler_writes.
Qed.

(** X13.  An image row changes only under a PUT /review-image that names its
    id: after any other request, whoever sends it and however it ends,
    the row under [id] is what it was. *)
Theorem image_row_written_only_by_its_review eng c app id :
  (∀ new_data remove_image,
     request c = PUT_review_image new_data remove_image →
     rm_id new_data ≠ id) →
  images (database (serve eng c app).2) !! id = images (database app) !! id.
Proof. intros Hreq. by apply serve_writes. Qed.

(** X14.  The user table changes only under PUT /change-user-role: every other
    request leaves it as it was. *)
Theorem users_written_only_by_change_user_role eng c app :
  (∀ name new_role, request c ≠ PUT_change_user_role name new_role) →
  users (database (serve eng c app).2) = users (database app).
Proof. intros Hreq. by apply serve_writes. Qed.

(** X15.  No route deletes or rewrites a category: over any sequence of
    requests the two category tables only grow at the end. *)
Theorem categories_append_only eng cs app :
  label_super_categories (database app)
    `prefix_of` label_super_categories (database (serve_all eng cs app).2) ∧
  label_categories (database app)
    `prefix_of` label_categories (database (serve_all eng cs app).2).
Proof.
  revert app. induction cs as [|c cs IH]; intros app; simpl; [done|].
  destruct (serve_writes eng c app) as (_ & _ & Hsuper & Hcat).
  destruct (serve eng c app) as [r app']. simpl in *.
  destruct (IH app') as [Hsuper' Hcat'].
  destruct (serve_all eng cs app') as [rs app'']. simpl in *.
  split; by etrans.
Qed.


(** X17.  PUT /change-user-role with the role the user already has commits the
    database it started from. *)
Theorem change_user_role_same_role eng db name id user :
  get_user_from_username name (users db) = Some (id, user) →
  users db !! id = Some user →
  change_user_role name (role user) (get_session eng db) =
    (Return (),
     {| committed := db; pending := db; commits := 1; engine := eng |}).
Proof.
  intros Hfind Hrow. rewrite change_user_role_run, Hfind. simpl.
  assert (set_role (role user) user = user) as -> by (by destruct user).
  rewrite insert_id by done. by destruct db.
Qed.
End frame_facts.

(** ** The queue is served oldest first *)

Section queue_order.
Context `{Helpers} `{!Buckets}.

(** X18.  Once the image GET /review-image returned has been reviewed out of
    the queue (removed, or given another status), the next
    GET /review-image for the same status returns an image that is not
    older than the one reviewed. *)
Theorem review_queue_oldest_first eng0 eng eng' db target_status m new_data
    remove_image m' :
  sorts eng0 → sorts eng' →
  (get_image_for_review target_status (get_session eng0 db)).1 = Return m →
  rm_id new_data = rm_id m →
  (remove_image = false → rm_review_status new_data ≠ target_status) →
  (update_image_review_status new_data remove_image (get_session eng db)).1
    = Return () →
  (get_image_for_review target_status
     (get_session eng'
        (committed (update_image_review_status new_data remove_image
                      (get_session eng db)).2))).1 = Return m' →
  rm_created_at m ≤ rm_created_at m'.
Proof.
  intros Heng0 Heng' Hget Hid Hstatus Hput Hget'.
  destruct (get_image_for_review_returns _ _ _ _ Heng0 Hget)
    as (row & (Hrow & Hst & Hmin) & _ & Hm).
  destruct (get_image_for_review_returns _ _ _ _ Heng' Hget')
    as (row' & (Hrow' & Hst' & _) & _ & Hm').
  rewrite Hm, Hm'. simpl.
  apply (Hmin (rm_id m') row'); [|done].
  revert Hput Hrow'. rewrite update_image_review_status_run, Hid, Hrow. simpl.
  destruct remove_image; simpl.
  - intros _ Hrow'.
    destruct (decide (rm_id m = rm_id m')) as [Heq|Hne].
    + by rewrite Heq, lookup_delete_eq in Hrow'.
    + by rewrite lookup_delete_ne in Hrow'.
  - destruct (get_id_from_team_number _ _); simpl; [|done].
    intros _ Hrow'.
    destruct (decide (rm_id m = rm_id m')) as [Heq|Hne].
    + rewrite Heq, lookup_insert_eq in Hrow'.
      injection Hrow' as <-. by destruct Hstatus.
    + by rewrite lookup_insert_ne in Hrow'.
Qed.
End queue_order.

(** ** The further properties at work on the sample database *)

Section sample_more_facts.
#[local] Existing Instance sample_models.
#[local] Existing Instance sample_helpers.
#[local] Existing Instance sample_buckets.

Lemma get_image_for_review_sound_witness :
  rm_review_status (review_metadata_of 2%N (sample_image 10 8 PENDING) 1678)
    = PENDING ∧
  ∃ row,
    images sample_db !! 2%N = Some row ∧
    oldest_with_status (images sample_db) PENDING 2%N row ∧
    "[]"%string = annotations row ∧
    10 = created_at row ∧
    1 = batch row ∧
    PENDING = review_status row ∧
    get_team_number_from_id (created_by row) (users sample_db) = Some 1678.
Proof.
  apply (get_image_for_review_sound scan_order_engine sample_db PENDING
           (review_metadata_of 2%N (sample_image 10 8 PENDING) 1678)).
  - apply scan_order_engine_sorts.
  - vm_compute. reflexivity.
Defined.

Lemma read_only_routes_witness :
  database (serve scan_order_engine
              (sample_call alice (GET_review_image PENDING)) sample_app).2
    = sample_db.
Proof.
  apply (@read_only_routes sample_models sample_helpers sample_buckets
           scan_order_engine
           (sample_call alice (@GET_review_image sample_models PENDING))
           sample_app).
  left. reflexivity.
Defined.

Lemma redirect_token_for_everyone_witness :
  (serve scan_order_engine (sample_call bob POST_token) sample_app).1
    = Served (Return (body_redirect "/token" 307)).
Proof.
  apply (@redirect_token_for_everyone sample_models sample_helpers
           sample_buckets scan_order_engine
           (sample_call bob (@POST_token sample_models)) sample_app);
    reflexivity.
Defined.

Lemma failed_request_changes_nothing_witness :
  database (serve scan_order_engine
              (sample_call bob (PUT_review_image sample_review true))
              sample_app).2 = sample_db.
Proof.
  destruct (@failed_request_changes_nothing sample_models sample_helpers
              sample_buckets scan_order_engine
              (sample_call bob
                 (@PUT_review_image sample_models sample_review true))
              sample_app) as (_ & Hforbidden & _).
  apply Hforbidden. vm_compute. reflexivity.
Defined.

Lemma handler_commits_at_most_once_witness :
  commits (handler (PUT_review_image stray_review false)
             (get_session scan_order_engine sample_db)).2 = 0%nat ∧
  committed (handler (PUT_review_image stray_review false)
               (get_session scan_order_engine sample_db)).2 = sample_db.
Proof.
  destruct (@handler_commits_at_most_once sample_models sample_helpers
              sample_buckets scan_order_engine sample_db
              (@PUT_review_image sample_models stray_review false))
    as (_ & Hraise & _).
  apply (Hraise (HTTPException 404 "Image not found")).
  vm_compute. reflexivity.
Defined.

Lemma put_back_review_metadata_witness :
  (update_image_review_status
     (review_metadata_of 2%N (sample_image 10 8 PENDING) 1678) false
     (get_session reverse_scan_engine sample_db)).1 = Return () ∧
  committed (update_image_review_status
     (review_metadata_of 2%N (sample_image 10 8 PENDING) 1678) false
     (get_session reverse_scan_engine sample_db)).2 = sample_db.
Proof.
  apply (put_back_review_metadata scan_order_engine reverse_scan_engine
           sample_db PENDING).
  - apply scan_order_engine_sorts.
  - vm_compute. reflexivity.
  - intros row Hrow. vm_compute in Hrow. injection Hrow as <-.
    vm_compute. reflexivity.
Defined.

Lemma update_image_review_status_idempotent_witness :
  let db1 :=
    committed (update_image_review_status sample_review false
                 (get_session scan_order_engine sample_db)).2 in
  (update_image_review_status sample_review false
     (get_session scan_order_engine db1)).1 = Return () ∧
  committed (update_image_review_status sample_review false
               (get_session scan_order_engine db1)).2 = db1.
Proof.
  apply (update_image_review_status_idempotent scan_order_engine sample_db
           sample_review (sample_image 10 7 PENDING) 8).
  - reflexivity.
  - vm_compute. reflexivity.
Defined.


Lemma reviewed_image_leaves_queue_witness :
  rm_id (review_metadata_of 2%N (sample_image 10 8 PENDING) 1678)
    ≠ rm_id sample_review.
Proof.
  apply (reviewed_image_leaves_queue scan_order_engine scan_order_engine
           sample_db sample_review false PENDING).
  - apply scan_order_engine_sorts.
  - vm_compute. reflexivity.
  - intros _. discriminate.
  - vm_compute. reflexivity.
Defined.

Lemma remove_image_needs_only_id_witness :
  update_image_review_status sample_review true
    (get_session scan_order_engine sample_db) =
  update_image_review_status
    (review_metadata_of 1%N (sample_image 10 7 PENDING) 0) true
    (get_session scan_order_engine sample_db).
Proof.
  apply (remove_image_needs_only_id scan_order_engine sample_db
           sample_review
           (review_metadata_of 1%N (sample_image 10 7 PENDING) 0)).
  reflexivity.
Defined.

Lemma image_row_written_only_by_its_review_witness :
  images (database (serve scan_order_engine
            (sample_call alice (PUT_review_image sample_review false))
            sample_app).2) !! 2%N
    = images sample_db !! 2%N.
Proof.
  apply (@image_row_written_only_by_its_review sample_models sample_helpers
           sample_buckets scan_order_engine
           (sample_call alice
              (@PUT_review_image sample_models sample_review false))
           sample_app 2%N).
  intros new_data remove_image [= <- _]. discriminate.
Defined.

Lemma users_written_only_by_change_user_role_witness :
  users (database (serve scan_order_engine
           (sample_call alice (PUT_review_image sample_review false))
           sample_app).2) = sample_users.
Proof.
  apply (@users_written_only_by_change_user_role sample_models
           sample_helpers sample_buckets scan_order_engine
           (sample_call alice
              (@PUT_review_image sample_models sample_review false))
           sample_app).
  intros name new_role. discriminate.
Defined.


Lemma change_user_role_same_role_witness :
  change_user_role "bob" TEAM (get_session scan_order_engine sample_db) =
  (Return (),
   {| committed := sample_db; pending := sample_db; commits := 1;
      engine := scan_order_engine |}).
Proof.
  apply (change_user_role_same_role scan_order_engine sample_db "bob" 8 bob).
  - vm_compute. reflexivity.
  - reflexivity.
Defined.

Lemma review_queue_oldest_first_witness :
  rm_created_at (review_metadata_of 1%N (sample_image 10 7 PENDING) 254)
    ≤ rm_created_at (review_metadata_of 2%N (sample_image 10 8 PENDING) 1678).
Proof.
  apply (review_queue_oldest_first reverse_scan_engine scan_order_engine
           scan_order_engine sample_db PENDING
           (review_metadata_of 1%N (sample_image 10 7 PENDING) 254)
           sample_review false
           (review_metadata_of 2%N (sample_image 10 8 PENDING) 1678)).
  - apply reverse_scan_engine_sorts.
  - apply scan_order_engine_sorts.
  - vm_compute. reflexivity.
  - reflexivity.
  - intros _. discriminate.
  - vm_compute. reflexivity.
  - vm_compute. reflexivity.
Defined.
End sample_more_facts.
